(** * thumbnails/files.py: the thumbnail manager, shallowly embedded

    The development follows [src/thumbnails/files.py].  Python objects that
    carry shared mutable state (the metadata backend, the storage backend)
    are handles into an explicit world; a method of [ThumbnailManager] is a
    computation over the pair (manager, world) that either returns a value
    or raises, and keeps every state change made before the raise. *)

From stdpp Require Import base option list strings gmap pretty.

Set Default Proof Using "Type".

(** ** Exceptions and the exception-state monad *)

Inductive exn : Type :=
| AttributeError (attr : string)
| KeyError (key : string)
| ValueError (msg : string)
| NotImplementedError (msg : string)
| IOError (msg : string).

Inductive result (A : Type) : Type :=
| Ok (a : A)
| Raise (e : exn).
Arguments Ok {A} a.
Arguments Raise {A} e.

Definition M (St A : Type) : Type := St -> result A * St.

Definition ret {St A} (a : A) : M St A := fun s => (Ok a, s).

Definition raise {St A} (e : exn) : M St A := fun s => (Raise e, s).

Definition bind {St A B} (c : M St A) (k : A -> M St B) : M St B :=
  fun s =>
    match c s with
    | (Ok a, s') => k a s'
    | (Raise e, s') => (Raise e, s')
    end.

Notation "'let!' x := c 'in' k" := (bind c (fun x => k))
  (at level 10, x name, c at level 100, k at level 200, only parsing).
Notation "'do!' c 'in' k" := (bind c (fun _ => k))
  (at level 10, c at level 100, k at level 200, only parsing).

(** A state made of the objects a function mutates and of the world:
    a collaborator call leaves the objects alone. *)
Definition call {Self World A} (c : M World A) : M (Self * World) A :=
  fun s =>
    match c (snd s) with
    | (r, w') => (r, (fst s, w'))
    end.

Definition self_ {Self World} : M (Self * World) Self :=
  fun s => (Ok (fst s), s).

Definition set_self {Self World} (x : Self) : M (Self * World) unit :=
  fun s => (Ok tt, (x, snd s)).

(** ** Data model *)

(** Handle of a storage backend object. *)
Definition Storage : Type := nat.

(** Handle of a metadata backend object, with its batch capability. *)
Record Backend : Type := mkBackend {
  backend_id : nat;
  supports_batch : bool
}.

Global Instance Backend_eq_dec : EqDecision Backend.
Proof. solve_decision. Defined.

(** The metadata record of one thumbnail: [metadata.size] is read by
    [ThumbnailManager.all], [name] is the storage path. *)
Module Metadata.
Record t : Type := mk {
  source_name : option string;
  size : string;
  name : string
}.
Global Instance eq_dec : EqDecision t.
Proof. solve_decision. Defined.
End Metadata.

(** [Thumbnail(metadata=..., storage=...)]. *)
Module Thumbnail.
Record t : Type := mk {
  metadata : option Metadata.t;
  storage : Storage
}.
Global Instance eq_dec : EqDecision t.
Proof. solve_decision. Defined.

(** Modelled from the spec: the class [Thumbnail] lives in
    [thumbnails/images.py], which is missing.  Accessing an attribute
    that requires backend data on a thumbnail with no metadata fails
    with the "unresolvable: no source" error (a [ValueError] in
    [test_fallback_image]); otherwise the handle exposes the path of
    its descriptor. *)
Definition url (th : t) : result string :=
  match metadata th with
  | None => Raise (ValueError "Thumbnail has no source file")
  | Some md => Ok (Metadata.name md)
  end.
End Thumbnail.

(** [FallbackImage(url)]. *)
Module FallbackImage.
Record t : Type := mk { url : string }.
Global Instance eq_dec : EqDecision t.
Proof. solve_decision. Defined.
End FallbackImage.

(** What attribute-style access can return. *)
Inductive Image : Type :=
| IsThumbnail (th : Thumbnail.t)
| IsFallback (fb : FallbackImage.t).

(** The source image: a file object with a [name]; as every Django
    [FieldFile] it is truthy exactly when its name is. *)
Module SourceImage.
Record t : Type := mk { name : option string }.

Definition truthy (si : t) : bool :=
  match name si with
  | Some n => negb (String.eqb n "")
  | None => false
  end.
End SourceImage.

(** One entry of [conf.SIZES]; only the option read in [files.py] and the
    transform parameters are kept. *)
Record SizeSpec : Type := mkSizeSpec {
  SIZE : option (nat * nat);
  FALLBACK_IMAGE_URL : option string
}.

Record ThumbnailManager : Type := mkManager {
  metadata_backend : Backend;
  storage : Storage;
  source_image : SourceImage.t;
  _thumbnails : gmap string Thumbnail.t
}.

Definition set_thumbnails (c : gmap string Thumbnail.t) (self : ThumbnailManager)
  : ThumbnailManager :=
  {| metadata_backend := metadata_backend self;
     storage := storage self;
     source_image := source_image self;
     _thumbnails := c |}.

(** ** The collaborators of [files.py]

    [conf], [images], [metadata] and the two backends are modules of the
    package that [files.py] imports.  The manager is embedded over an
    arbitrary implementation of them: each is a computation over a world
    of its own choosing, and none of them ever sees the manager object. *)

Class Collaborators (World : Type) : Type := {
  SIZES : gmap string SizeSpec;
  images_get :
    option string -> string -> Backend -> Storage -> M World (option Thumbnail.t);
  images_create :
    option string -> string -> Backend -> Storage -> M World Thumbnail.t;
  images_delete :
    option string -> string -> Backend -> Storage -> M World unit;
  get_thumbnails : Backend -> option string -> M World (list Metadata.t);
  get_path : option string -> option string -> M World (option string);
  get_backend : M World Storage;
  storage_exists : Storage -> string -> M World bool;
  storage_delete : Storage -> option string -> M World bool
}.

Section Files.
Context {World : Type} `{Env : Collaborators World}.

(** Assignment to the dictionary held in [self._thumbnails]. *)
Definition store_thumbnails (c : gmap string Thumbnail.t)
  : M (ThumbnailManager * World) unit :=
  let! self := self_ in
  set_self (set_thumbnails c self).

(** [ThumbnailManager.__init__] *)
Definition __init__ (metadata_backend : Backend) (storage : Storage)
    (source_image : SourceImage.t) : ThumbnailManager :=
  {| metadata_backend := metadata_backend;
     storage := storage;
     source_image := source_image;
     _thumbnails := ∅ |}.

(** [ThumbnailManager.create] *)
Definition create (size : string) : M (ThumbnailManager * World) Thumbnail.t :=
  let! self := self_ in
  let! thumbnail :=
    call (images_create (SourceImage.name (source_image self)) size
            (metadata_backend self) (storage self)) in
  ret thumbnail.

(** [ThumbnailManager.get_thumbnail]; the keyword argument [create] of
    the source is [create_arg] here, the method [create] keeps its name. *)
Definition get_thumbnail (size : string) (create_arg : bool)
  : M (ThumbnailManager * World) Thumbnail.t :=
  let! self := self_ in
  match _thumbnails self !! size with
  | Some thumbnail => ret thumbnail
  | None =>
      let! found :=
        call (images_get (SourceImage.name (source_image self)) size
                (metadata_backend self) (storage self)) in
      let! thumbnail :=
        match found with
        | Some thumbnail => ret thumbnail
        | None => create size
        end in
      let! self' := self_ in
      do! store_thumbnails (<[size := thumbnail]> (_thumbnails self')) in
      ret thumbnail
  end.

(** [ThumbnailManager.__getattr__].  Python calls it only for a name
    that ordinary attribute lookup does not find. *)
Definition __getattr__ (name : string) : M (ThumbnailManager * World) Image :=
  match SIZES !! name with
  | Some spec =>
      let! self := self_ in
      if negb (SourceImage.truthy (source_image self)) then
        match FALLBACK_IMAGE_URL spec with
        | Some fallback_image_url =>
            if negb (String.eqb fallback_image_url "")
            then ret (IsFallback (FallbackImage.mk fallback_image_url))
            else ret (IsThumbnail (Thumbnail.mk None (storage self)))
        | None => ret (IsThumbnail (Thumbnail.mk None (storage self)))
        end
      else
        let! thumbnail := get_thumbnail name true in
        ret (IsThumbnail thumbnail)
  | None => raise (AttributeError name)
  end.

(** The loop of [ThumbnailManager.all]. *)
Definition merge_metadatas (storage : Storage) (metadatas : list Metadata.t)
    (cache : gmap string Thumbnail.t) : gmap string Thumbnail.t :=
  foldl (fun c metadata =>
           <[Metadata.size metadata := Thumbnail.mk (Some metadata) storage]> c)
        cache metadatas.

(** [ThumbnailManager.all] *)
Definition all : M (ThumbnailManager * World) (gmap string Thumbnail.t) :=
  let! self := self_ in
  let! metadatas :=
    call (get_thumbnails (metadata_backend self)
            (SourceImage.name (source_image self))) in
  let! self' := self_ in
  do! store_thumbnails
        (merge_metadatas (storage self') metadatas (_thumbnails self')) in
  let! self'' := self_ in
  ret (_thumbnails self'').

(** [ThumbnailManager.delete]: [del] on a missing key raises [KeyError]. *)
Definition delete (size : string) : M (ThumbnailManager * World) unit :=
  let! self := self_ in
  do! call (images_delete (SourceImage.name (source_image self)) size
          (metadata_backend self) (storage self)) in
  let! self' := self_ in
  match _thumbnails self' !! size with
  | Some _ => store_thumbnails (base.delete size (_thumbnails self'))
  | None => raise (KeyError size)
  end.

(** The free function [exists] of [files.py]. *)
Definition exists_ (source_name : option string) (size : option string)
  : M World bool :=
  let! path := get_path source_name size in
  match path with
  | Some p => let! backend := get_backend in storage_exists backend p
  | None => ret false
  end.

(** The free function [delete] of [files.py]. *)
Definition delete_ (source_name : option string) (size : option string)
  : M World bool :=
  let! path := get_path source_name size in
  let! backend := get_backend in
  storage_delete backend path.

End Files.

(** What no method of the manager assigns: the two backends and the
    source image it was constructed with. *)
Definition same_bindings (self self' : ThumbnailManager) : Prop :=
  metadata_backend self' = metadata_backend self
  /\ storage self' = storage self
  /\ source_image self' = source_image self.

(** The record a dictionary built by the loop of [all] holds for a size:
    the last one of that size in the list of the backend. *)
Definition last_of_size (size : string) (metadatas : list Metadata.t)
  : option Metadata.t :=
  List.find (fun metadata => bool_decide (Metadata.size metadata = size))
    (reverse metadatas).

(** ** A reference implementation of the collaborators

    None of [thumbnails/conf.py], [images.py], [metadata.py],
    [backends/] and [fields.py] is part of the sources at hand.  The module
    below gives them one executable reading, taken from the specification,
    over a world made of the descriptor table of the metadata stores, the
    set of stored blobs and a chronological log of the backend calls. *)
Module Reference.

Inductive event : Type :=
| MetaGetOne (backend : nat) (source : option string) (size : string)
| MetaGetAll (backend : nat) (source : option string)
| MetaGetMany (backend : nat) (sources : list (option string))
    (sizes : option (list string))
| MetaAdd (backend : nat) (md : Metadata.t)
| MetaRemove (backend : nat) (source : option string) (size : string)
| BlobRead (path : string)
| BlobSave (path : string)
| BlobExists (path : string)
| BlobDelete (path : option string).

Global Instance event_eq_dec : EqDecision event.
Proof. solve_decision. Defined.

Record World : Type := mkWorld {
  rows : list (nat * Metadata.t);
  blobs : list string;
  serial : nat;
  log : list event
}.

Definition emit (es : list event) : M World unit :=
  fun w => (Ok tt, {| rows := rows w; blobs := blobs w;
                      serial := serial w; log := log w ++ es |}).

Definition world : M World World := fun w => (Ok w, w).

(** Does a row of the table describe (backend, source, size)? *)
Definition row_is (b : nat) (source : option string) (size : string)
    (r : nat * Metadata.t) : bool :=
  bool_decide (r.1 = b) && bool_decide (Metadata.source_name r.2 = source)
  && bool_decide (Metadata.size r.2 = size).

Definition row_of (b : nat) (source : option string) (r : nat * Metadata.t) : bool :=
  bool_decide (r.1 = b) && bool_decide (Metadata.source_name r.2 = source).

Definition find_row (b : nat) (source : option string) (size : string)
    (rs : list (nat * Metadata.t)) : option Metadata.t :=
  snd <$> List.find (row_is b source size) rs.

(** Modelled from the spec: [get_one(source_id, size)] of the Metadata
    Store (§4.2), the descriptor of the pair or absent. *)
Definition get_one (b : Backend) (source : option string) (size : string)
  : M World (option Metadata.t) :=
  do! emit [MetaGetOne (backend_id b) source size] in
  let! w := world in
  ret (find_row (backend_id b) source size (rows w)).

(** The descriptors a store holds for a source. *)
Definition persisted (b : nat) (source : option string) (w : World)
  : list Metadata.t :=
  snd <$> List.filter (row_of b source) (rows w).

(** Modelled from the spec: [get_all(source_id)] of the Metadata Store
    (§4.2), every descriptor persisted for the source; the method
    [metadata_backend.get_thumbnails] called by [ThumbnailManager.all]. *)
Definition get_all (b : Backend) (source : option string)
  : M World (list Metadata.t) :=
  do! emit [MetaGetAll (backend_id b) source] in
  let! w := world in
  ret (persisted (backend_id b) source w).

(** Modelled from the spec: [images.get] of the missing [images.py];
    "query Metadata Store for an existing descriptor; if found, wrap"
    (§4.1), absent otherwise. *)
Definition images_get (source : option string) (size : string) (b : Backend)
    (st : Storage) : M World (option Thumbnail.t) :=
  let! found := get_one b source size in
  ret ((fun md => Thumbnail.mk (Some md) st) <$> found).

Definition put_world (w : World) : M World unit := fun _ => (Ok tt, w).

(** The world after the log has grown by [es]. *)
Definition logged (es : list event) (w : World) : World := (emit es w).2.

(** The descriptor that a generation writes, and the world it leaves:
    the blob saved, the descriptor of the pair replaced, the calls
    logged. *)
Definition generated_md (src size : string) (w : World) : Metadata.t :=
  Metadata.mk (Some src) size
    (src +:+ "_" +:+ size +:+ "_" +:+ pretty (serial w))%string.

Definition generated_world (src size : string) (b : Backend) (w : World)
  : World :=
  {| rows := (backend_id b, generated_md src size w)
             :: List.filter
                  (fun r => negb (row_is (backend_id b) (Some src) size r))
                  (rows w);
     blobs := Metadata.name (generated_md src size w) :: blobs w;
     serial := S (serial w);
     log := log w
            ++ [BlobRead src;
                BlobSave (Metadata.name (generated_md src size w));
                MetaAdd (backend_id b) (generated_md src size w)] |}.

Section WithRegistry.
Variable sizes : gmap string SizeSpec.

(** Modelled from the spec: [images.create] of the missing
    [images.py], the Thumbnail Generator of §4.3.  It needs the
    registry entry of the size (its absence is a configuration
    error) and the bytes of the source; it saves the result under a
    path made unique by a serial suffix and records the descriptor,
    the last write replacing an earlier descriptor of the pair. *)
Definition images_create (source : option string) (size : string)
    (b : Backend) (st : Storage) : M World Thumbnail.t :=
  match sizes !! size with
  | None => raise (KeyError size)
  | Some _ =>
      match source with
      | None => raise (ValueError "no source file")
      | Some src =>
          let! w := world in
          if bool_decide (src ∈ blobs w) then
            do! put_world (generated_world src size b w) in
            ret (Thumbnail.mk (Some (generated_md src size w)) st)
          else
            do! emit [BlobRead src] in
            raise (IOError "source file not found")
      end
  end.

(** Modelled from the spec: [images.delete] of the missing
    [images.py]; "removes the stored blob and metadata descriptor for
    this (source, size)" (§4.1), silently when there is none. *)
Definition images_delete (source : option string) (size : string)
    (b : Backend) (st : Storage) : M World unit :=
  let! w := world in
  match find_row (backend_id b) source size (rows w) with
  | Some md =>
      put_world
        {| rows := List.filter
                     (fun r => negb (row_is (backend_id b) source size r))
                     (rows w);
           blobs := List.filter
                      (fun p => negb (String.eqb p (Metadata.name md)))
                      (blobs w);
           serial := serial w;
           log := log w ++ [BlobDelete (Some (Metadata.name md));
                             MetaRemove (backend_id b) source size] |}
  | None => emit [MetaRemove (backend_id b) source size]
  end.

(** The metadata backend that [metadata.get_path] consults. *)
Definition default_backend : Backend :=
  {| backend_id := 0; supports_batch := false |}.

(** Modelled from the spec: [metadata.get_path] of the missing
    [metadata.py]: the storage path recorded for the pair, or none;
    "with no size argument" it resolves "the default/primary size's
    path" (§6). *)
Definition get_path (source : option string) (size : option string)
  : M World (option string) :=
  let! found := get_one default_backend source (default "default" size) in
  ret (Metadata.name <$> found).

(** Modelled from the spec: [backends.storage.get_backend] and the
    Blob Store contract of §6, [exists(path)] and [delete(path)]; a
    path of [None] is refused as Django's storages refuse it. *)
Definition get_backend : M World Storage := ret 0.

Definition storage_exists (st : Storage) (path : string) : M World bool :=
  do! emit [BlobExists path] in
  let! w := world in
  ret (bool_decide (path ∈ blobs w)).

Definition storage_delete (st : Storage) (path : option string) : M World bool :=
  do! emit [BlobDelete path] in
  match path with
  | None => raise (ValueError "The name must be given to delete().")
  | Some p =>
      let! w := world in
      do! put_world
            {| rows := rows w;
               blobs := List.filter (fun q => negb (String.eqb q p)) (blobs w);
               serial := serial w;
               log := log w |} in
      ret (bool_decide (p ∈ blobs w))
  end.

Definition env : Collaborators World :=
  Build_Collaborators World sizes images_get images_create images_delete
    get_all get_path get_backend storage_exists storage_delete.
End WithRegistry.

End Reference.

(** ** The Fetch Coordinator *)
Module fields.

(** Is the size of a descriptor among the sizes asked for? *)
Definition requested (sizes : option (list string)) (md : Metadata.t) : bool :=
  match sizes with
  | None => true
  | Some l => bool_decide (Metadata.size md ∈ l)
  end.

(** Modelled from the spec: [get_many(source_ids, sizes?)] of the
    Metadata Store (§4.2), one bulk query answering, per source, the
    descriptors persisted for it, scoped to [sizes] when given. *)
Definition get_many (b : Backend) (sources : list (option string))
    (sizes : option (list string))
  : M Reference.World (list (option string * list Metadata.t)) :=
  do! Reference.emit [Reference.MetaGetMany (backend_id b) sources sizes] in
  let! w := Reference.world in
  ret ((fun source =>
          (source,
           List.filter (requested sizes)
             (Reference.persisted (backend_id b) source w)))
         <$> sources).

Definition found_for (source : option string)
    (found : list (option string * list Metadata.t)) : list Metadata.t :=
  default [] (snd <$> List.find (fun p => bool_decide (p.1 = source)) found).

(** The cache of an image of the group receives its descriptors "exactly
    as [all()] would"; an image of another group is left alone. *)
Definition populate (b : Backend) (found : list (option string * list Metadata.t))
    (image : ThumbnailManager) : ThumbnailManager :=
  if bool_decide (metadata_backend image = b) then
    set_thumbnails
      (merge_metadatas (storage image)
         (found_for (SourceImage.name (source_image image)) found)
         (_thumbnails image))
      image
  else image.

Definition group_of (b : Backend) (images : list ThumbnailManager)
  : list ThumbnailManager :=
  List.filter (fun image => bool_decide (metadata_backend image = b)) images.

Fixpoint fetch_groups (groups : list Backend) (sizes : option (list string))
  : M (list ThumbnailManager * Reference.World) unit :=
  match groups with
  | [] => ret tt
  | b :: groups' =>
      if supports_batch b then
        let! images := self_ in
        let! found :=
          call (get_many b
                  ((fun image => SourceImage.name (source_image image))
                     <$> group_of b images)
                  sizes) in
        do! set_self (populate b found <$> images) in
        fetch_groups groups' sizes
      else raise (NotImplementedError "metadata backend has no batch prefetch")
  end.

(** Modelled from the spec: [fetch_thumbnails(images, sizes=None)] of the
    missing [thumbnails/fields.py], the Fetch Coordinator of §4.4.  The
    images are grouped by metadata backend; a group whose backend has no
    batch prefetch is an "unsupported backend" error
    ([NotImplementedError] in [test_fetch_non_redis]), any other group
    costs one [get_many].  The state holds the managers of [images]. *)
Definition fetch_thumbnails (sizes : option (list string))
  : M (list ThumbnailManager * Reference.World) unit :=
  let! images := self_ in
  fetch_groups (remove_dups (metadata_backend <$> images)) sizes.

End fields.

(** ** Fixtures: a registry, two backends, small worlds *)
Module Fixtures.

(** The registry of the test settings: three sizes, a fallback image for
    [default] only. *)
Definition sizes : gmap string SizeSpec :=
  <["small" := mkSizeSpec (Some (10, 10)) None]>
    (<["default" := mkSizeSpec (Some (20, 20)) (Some "/static/default.png")]>
       (<["large" := mkSizeSpec (Some (80, 80)) None]> ∅)).

Definition database : Backend := {| backend_id := 0; supports_batch := false |}.
Definition redis : Backend := {| backend_id := 1; supports_batch := true |}.

Definition avatar_name : option string := Some "avatars/a.png".
Definition avatar : SourceImage.t := SourceImage.mk avatar_name.
Definition no_avatar : SourceImage.t := SourceImage.mk None.
Definition blank_avatar : SourceImage.t := SourceImage.mk (Some "").

(** The source is stored, nothing has been generated yet. *)
Definition fresh_world : Reference.World :=
  Reference.mkWorld [] ["avatars/a.png"] 0 [].

Definition small_md : Metadata.t :=
  Metadata.mk avatar_name "small" "avatars/a.png_small_7".
Definition large_md : Metadata.t :=
  Metadata.mk avatar_name "large" "avatars/a.png_large_8".
Definition lrge_md : Metadata.t :=
  Metadata.mk avatar_name "lrge" "avatars/a.png_lrge_3".

(** [small] has been generated before. *)
Definition small_world : Reference.World :=
  Reference.mkWorld [(0, small_md)]
    ["avatars/a.png_small_7"; "avatars/a.png"] 9 [].

(** A descriptor left from a time when the registry had a size [lrge]. *)
Definition legacy_world : Reference.World :=
  Reference.mkWorld [(0, lrge_md)]
    ["avatars/a.png_lrge_3"; "avatars/a.png"] 9 [].

(** [redis] holds [small], [database] holds nothing. *)
Definition redis_world : Reference.World :=
  Reference.mkWorld [(1, small_md)]
    ["avatars/a.png_small_7"; "avatars/a.png"] 9 [].

Definition manager : ThumbnailManager := __init__ database 0 avatar.
Definition redis_manager : ThumbnailManager := __init__ redis 0 avatar.
Definition unbound_manager : ThumbnailManager := __init__ database 0 no_avatar.

(** A manager whose cache still holds [large], deleted from the store
    behind its back. *)
Definition stale_manager : ThumbnailManager :=
  set_thumbnails {["large" := Thumbnail.mk (Some large_md) 0]} manager.

(** A manager that has [small] in its cache, as generated before. *)
Definition cached_manager : ThumbnailManager :=
  set_thumbnails {["small" := Thumbnail.mk (Some small_md) 0]} manager.

Definition env : Collaborators Reference.World := Reference.env sizes.

End Fixtures.

(** * Properties of the manager, for every implementation of its collaborators *)

Section FilesFacts.
Context {World : Type} `{Env : Collaborators World}.
Implicit Types (self : ThumbnailManager) (w : World) (size : string).

Lemma bind_ok {St A B} (c : M St A) (k : A -> M St B) s a s' :
  c s = (Ok a, s') -> bind c k s = k a s'.
Proof. intros H. unfold bind. by rewrite H. Qed.

Lemma bind_raise {St A B} (c : M St A) (k : A -> M St B) s e s' :
  c s = (Raise e, s') -> bind c k s = (Raise e, s').
Proof. intros H. unfold bind. by rewrite H. Qed.

Lemma call_run {Self A} (c : M World A) (x : Self) w :
  call c (x, w) = ((c w).1, (x, (c w).2)).
Proof. unfold call. simpl. by destruct (c w). Qed.

Lemma set_thumbnails_id self : set_thumbnails (_thumbnails self) self = self.
Proof. by destruct self. Qed.

(** [create] is the generator and nothing else: whatever it answers, the
    manager object is the one it was. *)
Lemma create_run size self w :
  create size (self, w) =
    let r := images_create (SourceImage.name (source_image self)) size
               (metadata_backend self) (storage self) w in
    (r.1, (self, r.2)).
Proof.
  unfold create, bind, self_, call, ret. simpl.
  by destruct (images_create _ _ _ _ w) as [[t|e] w'].
Qed.

Lemma create_keeps_self size self w : (create size (self, w)).2.1 = self.
Proof. by rewrite create_run. Qed.

(** The keyword argument [create] is never read. *)
Lemma get_thumbnail_ignores_create size :
  get_thumbnail size false = get_thumbnail size true.
Proof. reflexivity. Qed.

Lemma get_thumbnail_hit size flag self w th :
  _thumbnails self !! size = Some th ->
  get_thumbnail size flag (self, w) = (Ok th, (self, w)).
Proof.
  intros Hhit. unfold get_thumbnail, bind, self_. simpl. by rewrite Hhit.
Qed.

Lemma get_thumbnail_found size flag self w th w' :
  _thumbnails self !! size = None ->
  images_get (SourceImage.name (source_image self)) size
    (metadata_backend self) (storage self) w = (Ok (Some th), w') ->
  get_thumbnail size flag (self, w) =
    (Ok th, (set_thumbnails (<[size := th]> (_thumbnails self)) self, w')).
Proof.
  intros Hmiss Hget.
  unfold get_thumbnail, bind, self_, call, store_thumbnails, set_self, ret.
  simpl. rewrite Hmiss. simpl. by rewrite Hget.
Qed.

Lemma get_thumbnail_generates size flag self w w1 th w2 :
  _thumbnails self !! size = None ->
  images_get (SourceImage.name (source_image self)) size
    (metadata_backend self) (storage self) w = (Ok None, w1) ->
  images_create (SourceImage.name (source_image self)) size
    (metadata_backend self) (storage self) w1 = (Ok th, w2) ->
  get_thumbnail size flag (self, w) =
    (Ok th, (set_thumbnails (<[size := th]> (_thumbnails self)) self, w2)).
Proof.
  intros Hmiss Hget Hcreate.
  unfold get_thumbnail, bind, self_, call, store_thumbnails, set_self, ret.
  simpl. rewrite Hmiss. simpl. rewrite Hget. simpl.
  rewrite create_run. simpl. by rewrite Hcreate.
Qed.

(** The keys after the loop of [all] are the old keys and the sizes of
    the records merged in. *)
Lemma dom_merge_metadatas st (mds : list Metadata.t) (c : gmap string Thumbnail.t) :
  dom (merge_metadatas st mds c) = dom c ∪ list_to_set (Metadata.size <$> mds).
Proof.
  revert c. induction mds as [|md mds IH]; intros c; simpl.
  - by rewrite (right_id_L ∅ (∪)).
  - unfold merge_metadatas in *. simpl. rewrite IH, dom_insert_L.
    rewrite (comm_L (∪) {[Metadata.size md]} (dom c)).
    by rewrite (assoc_L (∪)).
Qed.

Lemma merge_metadatas_nil st (c : gmap string Thumbnail.t) :
  merge_metadatas st [] c = c.
Proof. reflexivity. Qed.

Lemma all_run self w mds w' :
  get_thumbnails (metadata_backend self) (SourceImage.name (source_image self)) w
    = (Ok mds, w') ->
  all (self, w) =
    (Ok (merge_metadatas (storage self) mds (_thumbnails self)),
     (set_thumbnails (merge_metadatas (storage self) mds (_thumbnails self)) self,
      w')).
Proof.
  intros Hq.
  unfold all, bind, self_, call, store_thumbnails, set_self, ret. simpl.
  by rewrite Hq.
Qed.

(** The three ways a cache miss can end. *)
Lemma get_thumbnail_miss_run size flag self w :
  _thumbnails self !! size = None ->
  get_thumbnail size flag (self, w) =
    match images_get (SourceImage.name (source_image self)) size
            (metadata_backend self) (storage self) w with
    | (Raise e, w1) => (Raise e, (self, w1))
    | (Ok (Some th), w1) =>
        (Ok th, (set_thumbnails (<[size := th]> (_thumbnails self)) self, w1))
    | (Ok None, w1) =>
        match images_create (SourceImage.name (source_image self)) size
                (metadata_backend self) (storage self) w1 with
        | (Ok th, w2) =>
            (Ok th, (set_thumbnails (<[size := th]> (_thumbnails self)) self, w2))
        | (Raise e, w2) => (Raise e, (self, w2))
        end
    end.
Proof.
  intros Hmiss.
  unfold get_thumbnail, bind, self_, call, store_thumbnails, set_self, ret.
  simpl. rewrite Hmiss. simpl.
  destruct (images_get _ _ _ _ w) as [[[th|]|e] w1]; simpl; [done| |done].
  rewrite create_run. simpl.
  by destruct (images_create _ _ _ _ w1) as [[th|e] w2].
Qed.

End FilesFacts.

Section FilesClaims.
Context {World : Type} `{Env : Collaborators World}.
Implicit Types (self : ThumbnailManager) (w : World) (size name : string).

Lemma getattr_unbound name spec self w :
  SIZES !! name = Some spec ->
  SourceImage.truthy (source_image self) = false ->
  __getattr__ name (self, w) =
    (Ok match FALLBACK_IMAGE_URL spec with
        | Some url =>
            if negb (String.eqb url "")
            then IsFallback (FallbackImage.mk url)
            else IsThumbnail (Thumbnail.mk None (storage self))
        | None => IsThumbnail (Thumbnail.mk None (storage self))
        end,
     (self, w)).
Proof.
  intros Hspec Hfalsy. unfold __getattr__. rewrite Hspec.
  unfold bind, self_. simpl. rewrite Hfalsy. simpl.
  destruct (FALLBACK_IMAGE_URL spec) as [url|]; [|done].
  by destruct (negb (String.eqb url "")).
Qed.

(** C2, as amended.  For a name that is not a key of [conf.SIZES],
    attribute-style access raises [AttributeError] at once: the manager
    and the world are the ones it started from, so nothing was read,
    queried or generated.  [get_thumbnail] has no such check: on a cache
    miss it hands the name to [images.get], and when that finds a
    descriptor the thumbnail is returned and cached without any error. *)
Theorem unknown_size_rejected_by_getattr_only name self w :
  SIZES !! name = None ->
  __getattr__ name (self, w) = (Raise (AttributeError name), (self, w))
  /\ (forall flag th w',
        _thumbnails self !! name = None ->
        images_get (SourceImage.name (source_image self)) name
          (metadata_backend self) (storage self) w = (Ok (Some th), w') ->
        get_thumbnail name flag (self, w) =
          (Ok th, (set_thumbnails (<[name := th]> (_thumbnails self)) self, w'))).
Proof.
  intros Hunknown. split.
  - unfold __getattr__. by rewrite Hunknown.
  - intros flag th w' Hmiss Hget. by apply get_thumbnail_found.
Qed.

(** C5, as amended.  With a falsy source image, attribute-style access
    to a registered size whose entry has a (non-empty)
    [FALLBACK_IMAGE_URL] returns a [FallbackImage] holding exactly that
    URL; for a registered size without one it returns, without raising, a
    [Thumbnail] whose metadata is [None], and reading [url] from that
    thumbnail is what raises [ValueError].  [get_thumbnail] has no such
    branch: it reads neither the truth value of the source image nor the
    registry; on a cache miss it hands the name of the unbound source to
    [images.get] and, when that finds nothing, to the generator, and what
    the two answer is what it answers, a failure leaving the manager as it
    was. *)
Theorem unbound_fallback_by_getattr_only self w :
  SourceImage.truthy (source_image self) = false ->
  (forall S spec url,
      SIZES !! S = Some spec ->
      FALLBACK_IMAGE_URL spec = Some url -> url <> "" ->
      exists fb,
        __getattr__ S (self, w) = (Ok (IsFallback fb), (self, w))
        /\ FallbackImage.url fb = url)
  /\ (forall T spec,
        SIZES !! T = Some spec ->
        FALLBACK_IMAGE_URL spec = None \/ FALLBACK_IMAGE_URL spec = Some "" ->
        exists th msg,
          __getattr__ T (self, w) = (Ok (IsThumbnail th), (self, w))
          /\ Thumbnail.metadata th = None
          /\ Thumbnail.url th = Raise (ValueError msg))
  /\ (forall size flag,
        _thumbnails self !! size = None ->
        get_thumbnail size flag (self, w) =
          match images_get (SourceImage.name (source_image self)) size
                  (metadata_backend self) (storage self) w with
          | (Raise e, w1) => (Raise e, (self, w1))
          | (Ok (Some th), w1) =>
              (Ok th,
               (set_thumbnails (<[size := th]> (_thumbnails self)) self, w1))
          | (Ok None, w1) =>
              match images_create (SourceImage.name (source_image self)) size
                      (metadata_backend self) (storage self) w1 with
              | (Ok th, w2) =>
                  (Ok th,
                   (set_thumbnails (<[size := th]> (_thumbnails self)) self, w2))
              | (Raise e, w2) => (Raise e, (self, w2))
              end
          end).
Proof.
  intros Hfalsy. split; [|split].
  - intros S spec url Hspec Hurl Hne. exists (FallbackImage.mk url).
    split; [|done].
    rewrite (getattr_unbound S spec) by done. rewrite Hurl.
    destruct (String.eqb_spec url ""); [done|]. done.
  - intros T spec Hspec Hnone.
    exists (Thumbnail.mk None (storage self)).
    exists "Thumbnail has no source file".
    split; [|done].
    rewrite (getattr_unbound T spec) by done.
    by destruct Hnone as [-> | ->].
  - intros size flag Hmiss. by apply get_thumbnail_miss_run.
Qed.

(** C8.  When [size] is not a key of [self._thumbnails] and
    [images.delete] returns normally, [ThumbnailManager.delete] raises
    [KeyError] and the world it leaves is the one [images.delete] made:
    the stored data is deleted although the call failed. *)
Theorem delete_uncached_raises_after_backend_delete size self w w' :
  _thumbnails self !! size = None ->
  images_delete (SourceImage.name (source_image self)) size
    (metadata_backend self) (storage self) w = (Ok tt, w') ->
  delete size (self, w) = (Raise (KeyError size), (self, w')).
Proof.
  intros Hmiss Hdel. unfold delete, bind, self_, call, raise. simpl.
  rewrite Hdel. simpl. by rewrite Hmiss.
Qed.

(** C9.  When [get_path] answers [None], the free function [exists]
    returns [False] in the very world [get_path] left, whatever the
    storage backend is (it is not even asked for), while the free
    function [delete] goes on to [get_backend().delete(None)]. *)
Theorem exists_guards_none_path_delete_does_not
    (source_name : option string) (size_arg : option string) w w' :
  get_path source_name size_arg w = (Ok None, w') ->
  exists_ source_name size_arg w = (Ok false, w')
  /\ delete_ source_name size_arg w =
       bind get_backend (fun backend => storage_delete backend None) w'.
Proof.
  intros Hpath. split.
  - unfold exists_. by rewrite (bind_ok _ _ _ _ _ Hpath).
  - unfold delete_. by rewrite (bind_ok _ _ _ _ _ Hpath).
Qed.

(** C10.  For a registered size and a falsy source image, attribute-style
    access answers a [FallbackImage] or a [Thumbnail] without metadata;
    the answer is the same whatever the cache holds and whatever the
    world is, and cache and world are returned as they were: the cache
    is neither read nor written, no collaborator is called. *)
Theorem getattr_unbound_touches_nothing name self :
  name ∈ dom SIZES ->
  SourceImage.truthy (source_image self) = false ->
  exists image,
    (image = IsThumbnail (Thumbnail.mk None (storage self))
     \/ exists url, image = IsFallback (FallbackImage.mk url))
    /\ forall cache w,
         __getattr__ name (set_thumbnails cache self, w) =
           (Ok image, (set_thumbnails cache self, w)).
Proof.
  intros [spec Hspec]%elem_of_dom Hfalsy.
  exists match FALLBACK_IMAGE_URL spec with
         | Some url =>
             if negb (String.eqb url "")
             then IsFallback (FallbackImage.mk url)
             else IsThumbnail (Thumbnail.mk None (storage self))
         | None => IsThumbnail (Thumbnail.mk None (storage self))
         end.
  split.
  - destruct (FALLBACK_IMAGE_URL spec) as [url|]; [|by left].
    destruct (negb (String.eqb url "")); [right; by exists url | by left].
  - intros cache w. by rewrite (getattr_unbound name spec).
Qed.

End FilesClaims.

(** * Properties over the reference collaborators *)

Section ReferenceFacts.
Variable sizes : gmap string SizeSpec.
Implicit Types (self : ThumbnailManager) (w : Reference.World) (size : string).

Lemma row_is_same b source size name :
  Reference.row_is b source size (b, Metadata.mk source size name) = true.
Proof.
  unfold Reference.row_is. simpl.
  by rewrite !bool_decide_eq_true_2.
Qed.

Lemma images_create_run src size b st w spec :
  sizes !! size = Some spec ->
  src ∈ Reference.blobs w ->
  Reference.images_create sizes (Some src) size b st w =
    (Ok (Thumbnail.mk (Some (Reference.generated_md src size w)) st),
     Reference.generated_world src size b w).
Proof.
  intros Hspec Hsrc. unfold Reference.images_create. rewrite Hspec.
  unfold bind, Reference.world, Reference.put_world, ret. simpl.
  by rewrite (bool_decide_eq_true_2 _ Hsrc).
Qed.

Lemma images_get_run source size b st w :
  Reference.images_get source size b st w =
    (Ok ((fun md => Thumbnail.mk (Some md) st)
           <$> Reference.find_row (backend_id b) source size (Reference.rows w)),
     Reference.logged [Reference.MetaGetOne (backend_id b) source size] w).
Proof. reflexivity. Qed.

Lemma images_get_after_create src size b st w :
  Reference.images_get (Some src) size b st (Reference.generated_world src size b w) =
    (Ok (Some (Thumbnail.mk (Some (Reference.generated_md src size w)) st)),
     Reference.logged [Reference.MetaGetOne (backend_id b) (Some src) size]
       (Reference.generated_world src size b w)).
Proof.
  rewrite images_get_run. unfold Reference.find_row, Reference.generated_world. simpl.
  unfold Reference.generated_md at 1. by rewrite row_is_same.
Qed.

Lemma get_all_run b source w :
  Reference.get_all b source w =
    (Ok (Reference.persisted (backend_id b) source w),
     Reference.logged [Reference.MetaGetAll (backend_id b) source] w).
Proof. reflexivity. Qed.

End ReferenceFacts.

Section ReferenceClaims.
Variable sizes : gmap string SizeSpec.
Implicit Types (self : ThumbnailManager) (w : Reference.World) (size : string).

(** C3, as amended.  [create] runs the generator and returns the new
    thumbnail; the manager, cache included, is left as it was.  When the
    size was not cached, the next [get_thumbnail] makes exactly one
    metadata lookup, answers the very thumbnail [create] returned and
    caches it; from then on [get_thumbnail] answers it from the cache,
    in any world, without a single backend call. *)
Theorem create_leaves_cache_next_get_looks_up_once size spec src self w :
  sizes !! size = Some spec ->
  SourceImage.name (source_image self) = Some src ->
  src ∈ Reference.blobs w ->
  _thumbnails self !! size = None ->
  let th := Thumbnail.mk (Some (Reference.generated_md src size w)) (storage self) in
  let w1 := Reference.generated_world src size (metadata_backend self) w in
  let self' := set_thumbnails (<[size := th]> (_thumbnails self)) self in
  @create _ (Reference.env sizes) size (self, w) = (Ok th, (self, w1))
  /\ (forall flag,
        @get_thumbnail _ (Reference.env sizes) size flag (self, w1) =
          (Ok th,
           (self',
            Reference.logged
              [Reference.MetaGetOne (backend_id (metadata_backend self))
                 (Some src) size] w1)))
  /\ (forall flag w2,
        @get_thumbnail _ (Reference.env sizes) size flag (self', w2) =
          (Ok th, (self', w2))).
Proof.
  intros Hspec Hname Hsrc Hmiss th w1 self'. split; [|split].
  - rewrite create_run. simpl. rewrite Hname.
    by rewrite (images_create_run sizes src size _ _ w spec).
  - intros flag. apply get_thumbnail_found; [done|]. simpl. rewrite Hname.
    apply images_get_after_create.
  - intros flag w2. apply get_thumbnail_hit. simpl. apply lookup_insert_eq.
Qed.

(** C4, as amended.  [all] makes one [get_thumbnails] query and nothing
    else (the world it leaves differs from the one it found by that log
    entry only: nothing is generated), stores the merged dictionary in
    the manager and returns it; its keys are the sizes that were cached
    before together with the sizes that have a persisted descriptor for
    the source. *)
Theorem all_keys_are_cached_and_persisted self w :
  exists cache',
    @all _ (Reference.env sizes) (self, w) =
      (Ok cache',
       (set_thumbnails cache' self,
        Reference.logged
          [Reference.MetaGetAll (backend_id (metadata_backend self))
             (SourceImage.name (source_image self))] w))
    /\ dom cache' =
         dom (_thumbnails self)
         ∪ list_to_set
             (Metadata.size
                <$> Reference.persisted (backend_id (metadata_backend self))
                      (SourceImage.name (source_image self)) w).
Proof.
  eexists. split.
  - apply all_run. simpl. apply get_all_run.
  - apply dom_merge_metadatas.
Qed.

End ReferenceClaims.

(** ** Properties of the Fetch Coordinator *)

Lemma remove_dups_head {A} `{EqDecision A} (l : list A) :
  l <> [] -> exists x l', remove_dups l = x :: l' /\ x ∈ l.
Proof.
  intros Hne. destruct (remove_dups l) as [|x l'] eqn:Hd.
  - destruct l as [|a l]; [done|].
    assert (a ∈ remove_dups (a :: l)) as Ha
      by (apply elem_of_remove_dups; left).
    rewrite Hd in Ha. by apply elem_of_nil in Ha.
  - exists x, l'. split; [done|].
    apply elem_of_remove_dups. rewrite Hd. left.
Qed.

(** C7.  When the images are at least one and the metadata backend of
    every one of them lacks batch prefetch, [fetch_thumbnails] raises
    [NotImplementedError] with the managers and the world exactly as they
    were: no cache was touched and the log has not grown, so not a single
    metadata query was made on the way. *)
Theorem fetch_thumbnails_unsupported_backend_fails_at_once
    (images : list ThumbnailManager) (sizes : option (list string))
    (w : Reference.World) :
  images <> [] ->
  Forall (fun image => supports_batch (metadata_backend image) = false) images ->
  exists msg,
    fields.fetch_thumbnails sizes (images, w) =
      (Raise (NotImplementedError msg), (images, w)).
Proof.
  intros Hne Hall.
  destruct (remove_dups_head (metadata_backend <$> images)) as (b & bs & Hd & Hb).
  { by destruct images. }
  apply list_elem_of_fmap in Hb as (image & -> & Himage).
  rewrite Forall_forall in Hall. specialize (Hall image).
  eexists. unfold fields.fetch_thumbnails, bind, self_. simpl.
  rewrite Hd. simpl. by rewrite (Hall Himage).
Qed.

(** * The manager at work on the fixtures *)

Section Runs.
Import Fixtures.

(** C1.  On a bound manager with an empty cache and a store without any
    descriptor, [get_thumbnail("small", create=False)] does not answer
    "absent": it runs the generator (the source is read, a blob saved, a
    descriptor added) and returns and caches the new thumbnail, as it
    does with [create=True]. *)
Theorem get_thumbnail_create_false_generates :
  let md := Metadata.mk avatar_name "small" "avatars/a.png_small_0" in
  let th := Thumbnail.mk (Some md) 0 in
  @get_thumbnail _ env "small" false (manager, fresh_world) =
    (Ok th,
     (set_thumbnails {["small" := th]} manager,
      {| Reference.rows := [(0, md)];
         Reference.blobs := ["avatars/a.png_small_0"; "avatars/a.png"];
         Reference.serial := 1;
         Reference.log :=
           [Reference.MetaGetOne 0 avatar_name "small";
            Reference.BlobRead "avatars/a.png";
            Reference.BlobSave "avatars/a.png_small_0";
            Reference.MetaAdd 0 md] |}))
  /\ @get_thumbnail _ env "small" false (manager, fresh_world) =
       @get_thumbnail _ env "small" true (manager, fresh_world).
Proof. split; reflexivity. Qed.

(** C6.  The cache of a manager just constructed is the empty
    dictionary, not a nil state: it is the same dictionary, in the same
    manager, that [all] leaves after querying a store without
    descriptors. *)
Theorem init_cache_is_empty_dict :
  (forall metadata_backend storage source_image,
      _thumbnails (__init__ metadata_backend storage source_image) = ∅)
  /\ @all _ env (manager, fresh_world) =
       (Ok ∅, (manager, Reference.logged [Reference.MetaGetAll 0 avatar_name] fresh_world)).
Proof. split; reflexivity. Qed.

(** C2 as stated fails: [lrge] is not a registered size, yet
    [get_thumbnail("lrge")] queries the metadata store, finds the
    descriptor left there and returns it, with no error at all. *)
Lemma get_thumbnail_serves_unknown_size :
  sizes !! "lrge" = None
  /\ @get_thumbnail _ env "lrge" true (manager, legacy_world) =
       (Ok (Thumbnail.mk (Some lrge_md) 0),
        (set_thumbnails {["lrge" := Thumbnail.mk (Some lrge_md) 0]} manager,
         Reference.logged [Reference.MetaGetOne 0 avatar_name "lrge"] legacy_world)).
Proof. split; reflexivity. Qed.

(** C3 as stated fails twice.  After [create("small")] on a fresh
    manager the cache has no entry for [small], and the next
    [get_thumbnail] asks the metadata store.  After [create("small")] on
    a manager that had [small] cached, the cache still holds the old
    thumbnail, and [get_thumbnail] returns it: its path is not the one
    of the thumbnail just created. *)
Lemma create_does_not_update_cache :
  (exists th w1 w2,
      @create _ env "small" (manager, fresh_world) = (Ok th, (manager, w1))
      /\ _thumbnails manager !! "small" = None
      /\ (@get_thumbnail _ env "small" true (manager, w1)).2.2 = w2
      /\ Reference.log w2 =
           Reference.log w1 ++ [Reference.MetaGetOne 0 avatar_name "small"])
  /\ (exists created w1,
        @create _ env "small" (cached_manager, small_world)
          = (Ok created, (cached_manager, w1))
        /\ Thumbnail.url created = Ok "avatars/a.png_small_9"
        /\ @get_thumbnail _ env "small" true (cached_manager, w1)
           = (Ok (Thumbnail.mk (Some small_md) 0), (cached_manager, w1))
        /\ Thumbnail.url (Thumbnail.mk (Some small_md) 0)
           = Ok "avatars/a.png_small_7").
Proof.
  split.
  - do 3 eexists. repeat split; reflexivity.
  - do 2 eexists. repeat split; reflexivity.
Qed.

(** C4 as stated fails: the store holds a descriptor for [small] only,
    yet the dictionary that [all] returns for a manager with [large] in
    its cache still has the key [large]. *)
Lemma all_keeps_stale_key :
  Metadata.size <$> Reference.persisted 0 avatar_name small_world = ["small"]
  /\ exists cache' st',
       @all _ env (stale_manager, small_world) = (Ok cache', st')
       /\ cache' !! "large" = Some (Thumbnail.mk (Some large_md) 0)
       /\ cache' !! "small" = Some (Thumbnail.mk (Some small_md) 0).
Proof.
  split; [reflexivity|]. do 2 eexists. repeat split; reflexivity.
Qed.

(** C5 as stated fails on the other way of requesting a size.  The
    manager has no source, [default] has a fallback URL and [large] has
    none; yet [get_thumbnail("default")] does not answer a fallback image
    and [get_thumbnail("large")] does not answer an empty thumbnail: each
    queries the metadata store for the unbound source and then raises. *)
Lemma get_thumbnail_unbound_has_no_fallback :
  SourceImage.truthy (source_image unbound_manager) = false
  /\ (sizes !! "default") ≫= FALLBACK_IMAGE_URL = Some "/static/default.png"
  /\ (sizes !! "large") ≫= FALLBACK_IMAGE_URL = None
  /\ @get_thumbnail _ env "default" true (unbound_manager, fresh_world) =
       (Raise (ValueError "no source file"),
        (unbound_manager,
         Reference.logged [Reference.MetaGetOne 0 None "default"] fresh_world))
  /\ @get_thumbnail _ env "large" true (unbound_manager, fresh_world) =
       (Raise (ValueError "no source file"),
        (unbound_manager,
         Reference.logged [Reference.MetaGetOne 0 None "large"] fresh_world)).
Proof. repeat split; reflexivity. Qed.

(** A backend with batch prefetch costs one [get_many] for its group and
    fills the cache of each image of the group. *)
Example fetch_thumbnails_redis :
  fields.fetch_thumbnails None ([redis_manager], redis_world) =
    (Ok tt,
     ([set_thumbnails {["small" := Thumbnail.mk (Some small_md) 0]} redis_manager],
      Reference.logged [Reference.MetaGetMany 1 [avatar_name] None] redis_world)).
Proof. reflexivity. Qed.

(** With a source bound, attribute-style access is [get_thumbnail]: a
    descriptor found in the store is wrapped and cached. *)
Example getattr_bound_small :
  @__getattr__ _ env "small" (manager, small_world) =
    (Ok (IsThumbnail (Thumbnail.mk (Some small_md) 0)),
     (cached_manager,
      Reference.logged [Reference.MetaGetOne 0 avatar_name "small"] small_world)).
Proof. reflexivity. Qed.

(** A file whose name is the empty string is as falsy as one without a
    name. *)
Example blank_avatar_is_falsy :
  SourceImage.truthy blank_avatar = false
  /\ @__getattr__ _ env "default" (__init__ database 0 blank_avatar, fresh_world) =
       (Ok (IsFallback (FallbackImage.mk "/static/default.png")),
        (__init__ database 0 blank_avatar, fresh_world)).
Proof. split; reflexivity. Qed.

(** After [delete] of a cached size neither the descriptor nor the cache
    entry is left. *)
Example delete_cached_small :
  @delete _ env "small" (cached_manager, small_world) =
    (Ok tt,
     (manager,
      {| Reference.rows := [];
         Reference.blobs := ["avatars/a.png"];
         Reference.serial := 9;
         Reference.log :=
           [Reference.BlobDelete (Some "avatars/a.png_small_7");
            Reference.MetaRemove 0 avatar_name "small"] |})).
Proof. reflexivity. Qed.

End Runs.

(** * The theorems with hypotheses, applied to the fixtures *)

Section Witnesses.
Import Fixtures.

Lemma unknown_size_rejected_by_getattr_only_witness :
  sizes !! "lrge" = None
  /\ @__getattr__ _ env "lrge" (manager, legacy_world) =
       (Raise (AttributeError "lrge"), (manager, legacy_world))
  /\ @get_thumbnail _ env "lrge" false (manager, legacy_world) =
       (Ok (Thumbnail.mk (Some lrge_md) 0),
        (set_thumbnails {["lrge" := Thumbnail.mk (Some lrge_md) 0]} manager,
         Reference.logged [Reference.MetaGetOne 0 avatar_name "lrge"]
           legacy_world)).
Proof.
  split; [reflexivity|].
  destruct (@unknown_size_rejected_by_getattr_only _ env "lrge" manager
              legacy_world eq_refl) as [Hattr Hget].
  split; [exact Hattr|].
  apply (Hget false (Thumbnail.mk (Some lrge_md) 0)); reflexivity.
Defined.

Lemma create_leaves_cache_next_get_looks_up_once_witness :
  let th := Thumbnail.mk
              (Some (Metadata.mk avatar_name "small" "avatars/a.png_small_0")) 0 in
  let w1 := Reference.generated_world "avatars/a.png" "small" database fresh_world in
  let manager' := set_thumbnails {["small" := th]} manager in
  @create _ env "small" (manager, fresh_world) = (Ok th, (manager, w1))
  /\ (forall flag,
        @get_thumbnail _ env "small" flag (manager, w1) =
          (Ok th,
           (manager',
            Reference.logged [Reference.MetaGetOne 0 avatar_name "small"] w1)))
  /\ (forall flag w2,
        @get_thumbnail _ env "small" flag (manager', w2) = (Ok th, (manager', w2))).
Proof.
  apply (create_leaves_cache_next_get_looks_up_once sizes "small"
           (mkSizeSpec (Some (10, 10)) None) "avatars/a.png" manager fresh_world).
  - reflexivity.
  - reflexivity.
  - simpl. constructor.
  - reflexivity.
Defined.

Lemma unbound_fallback_by_getattr_only_witness :
  SourceImage.truthy (source_image unbound_manager) = false
  /\ (exists fb,
        @__getattr__ _ env "default" (unbound_manager, fresh_world) =
          (Ok (IsFallback fb), (unbound_manager, fresh_world))
        /\ FallbackImage.url fb = "/static/default.png")
  /\ (exists th msg,
        @__getattr__ _ env "large" (unbound_manager, fresh_world) =
          (Ok (IsThumbnail th), (unbound_manager, fresh_world))
        /\ Thumbnail.metadata th = None
        /\ Thumbnail.url th = Raise (ValueError msg))
  /\ @get_thumbnail _ env "default" true (unbound_manager, fresh_world) =
       (Raise (ValueError "no source file"),
        (unbound_manager,
         Reference.logged [Reference.MetaGetOne 0 None "default"] fresh_world)).
Proof.
  split; [reflexivity|].
  destruct (@unbound_fallback_by_getattr_only _ env unbound_manager
              fresh_world eq_refl) as (Hfallback & Hempty & Hget).
  split; [|split].
  - apply (Hfallback "default"
             (mkSizeSpec (Some (20, 20)) (Some "/static/default.png")));
      [reflexivity | reflexivity | discriminate].
  - apply (Hempty "large" (mkSizeSpec (Some (80, 80)) None));
      [reflexivity | left; reflexivity].
  - rewrite (Hget "default" true eq_refl). reflexivity.
Defined.

Lemma fetch_thumbnails_unsupported_backend_fails_at_once_witness :
  [manager; cached_manager] <> []
  /\ Forall (fun image => supports_batch (metadata_backend image) = false)
       [manager; cached_manager]
  /\ exists msg,
       fields.fetch_thumbnails None ([manager; cached_manager], small_world) =
         (Raise (NotImplementedError msg), ([manager; cached_manager], small_world)).
Proof.
  assert ([manager; cached_manager] <> []) as Hne by discriminate.
  assert (Forall (fun image => supports_batch (metadata_backend image) = false)
            [manager; cached_manager]) as Hall
    by (repeat constructor).
  split; [exact Hne|]. split; [exact Hall|].
  exact (fetch_thumbnails_unsupported_backend_fails_at_once
           [manager; cached_manager] None small_world Hne Hall).
Defined.

Lemma delete_uncached_raises_after_backend_delete_witness :
  let w' :=
    {| Reference.rows := [];
       Reference.blobs := ["avatars/a.png"];
       Reference.serial := 9;
       Reference.log :=
         [Reference.BlobDelete (Some "avatars/a.png_small_7");
          Reference.MetaRemove 0 avatar_name "small"] |} in
  _thumbnails manager !! "small" = None
  /\ @images_delete _ env avatar_name "small" database 0 small_world = (Ok tt, w')
  /\ @delete _ env "small" (manager, small_world) =
       (Raise (KeyError "small"), (manager, w')).
Proof.
  intros w'. split; [reflexivity|]. split; [reflexivity|].
  apply (@delete_uncached_raises_after_backend_delete _ env "small" manager
           small_world w'); reflexivity.
Defined.

Lemma exists_guards_none_path_delete_does_not_witness :
  let w' := Reference.logged [Reference.MetaGetOne 0 avatar_name "default"]
              fresh_world in
  @get_path _ env avatar_name None fresh_world = (Ok None, w')
  /\ @exists_ _ env avatar_name None fresh_world = (Ok false, w')
  /\ @delete_ _ env avatar_name None fresh_world =
       (Raise (ValueError "The name must be given to delete()."),
        Reference.logged [Reference.BlobDelete None] w').
Proof.
  intros w'. split; [reflexivity|].
  destruct (@exists_guards_none_path_delete_does_not _ env avatar_name None
              fresh_world w' eq_refl) as [Hexists Hdelete].
  split; [exact Hexists|]. rewrite Hdelete. reflexivity.
Defined.

Lemma getattr_unbound_touches_nothing_witness :
  "large" ∈ dom (@SIZES _ env)
  /\ SourceImage.truthy (source_image unbound_manager) = false
  /\ exists image,
       (image = IsThumbnail (Thumbnail.mk None 0)
        \/ exists url, image = IsFallback (FallbackImage.mk url))
       /\ forall cache w,
            @__getattr__ _ env "large" (set_thumbnails cache unbound_manager, w) =
              (Ok image, (set_thumbnails cache unbound_manager, w)).
Proof.
  assert ("large" ∈ dom (@SIZES _ env)) as Hreg
    by (apply elem_of_dom; eexists; reflexivity).
  split; [exact Hreg|]. split; [reflexivity|].
  exact (@getattr_unbound_touches_nothing _ env "large" unbound_manager
           Hreg eq_refl).
Defined.

End Witnesses.

(** * Further properties of the manager, for every implementation of its
      collaborators *)

Section ManagerRuns.
Context {World : Type} `{Env : Collaborators World}.
Implicit Types (self : ThumbnailManager) (w : World) (size name : string).

Lemma delete_run size self w :
  delete size (self, w) =
    match images_delete (SourceImage.name (source_image self)) size
            (metadata_backend self) (storage self) w with
    | (Raise e, w1) => (Raise e, (self, w1))
    | (Ok _, w1) =>
        match _thumbnails self !! size with
        | Some _ =>
            (Ok tt, (set_thumbnails (base.delete size (_thumbnails self)) self, w1))
        | None => (Raise (KeyError size), (self, w1))
        end
    end.
Proof.
  unfold delete, bind, self_, call, store_thumbnails, set_self, raise. simpl.
  destruct (images_delete _ _ _ _ w) as [[[]|e] w1]; simpl; [|done].
  by destruct (_thumbnails self !! size).
Qed.

Lemma all_run_any self w :
  all (self, w) =
    match get_thumbnails (metadata_backend self)
            (SourceImage.name (source_image self)) w with
    | (Ok mds, w1) =>
        (Ok (merge_metadatas (storage self) mds (_thumbnails self)),
         (set_thumbnails (merge_metadatas (storage self) mds (_thumbnails self)) self,
          w1))
    | (Raise e, w1) => (Raise e, (self, w1))
    end.
Proof.
  unfold all, bind, self_, call, store_thumbnails, set_self, ret. simpl.
  by destruct (get_thumbnails _ _ w) as [[mds|e] w1].
Qed.

Lemma delete_ok_manager size self w self' w' :
  delete size (self, w) = (Ok tt, (self', w')) ->
  self' = set_thumbnails (base.delete size (_thumbnails self)) self.
Proof.
  rewrite delete_run.
  destruct (images_delete _ _ _ _ w) as [[[]|e] w1]; [|done].
  destruct (_thumbnails self !! size) as [th|]; [|done].
  by intros [= <- _].
Qed.

Lemma set_thumbnails_insert_id size th self :
  _thumbnails self !! size = Some th ->
  set_thumbnails (<[size := th]> (_thumbnails self)) self = self.
Proof. intros Hhit. rewrite insert_id by done. apply set_thumbnails_id. Qed.

Lemma same_bindings_refl self : same_bindings self self.
Proof. done. Qed.

Lemma same_bindings_set c self : same_bindings self (set_thumbnails c self).
Proof. done. Qed.

(** The manager that a run of [get_thumbnail] leaves. *)
Lemma get_thumbnail_manager size flag self w :
  match get_thumbnail size flag (self, w) with
  | (Ok th, (self', _)) =>
      self' = set_thumbnails (<[size := th]> (_thumbnails self)) self
  | (Raise _, (self', _)) => self' = self
  end.
Proof.
  destruct (_thumbnails self !! size) as [th|] eqn:Hc.
  - rewrite (get_thumbnail_hit size flag self w th Hc).
    by rewrite set_thumbnails_insert_id.
  - rewrite get_thumbnail_miss_run by done.
    destruct (images_get _ _ _ _ w) as [[[th|]|e] w1]; [done| |done].
    by destruct (images_create _ _ _ _ w1) as [[th|e] w2].
Qed.

(** What the loop of [all] leaves under a key. *)
Lemma merge_metadatas_lookup st (mds : list Metadata.t)
    (c : gmap string Thumbnail.t) k :
  merge_metadatas st mds c !! k =
    match last_of_size k mds with
    | Some md => Some (Thumbnail.mk (Some md) st)
    | None => c !! k
    end.
Proof.
  unfold last_of_size.
  induction mds as [|md mds IH] using rev_ind; [done|].
  unfold merge_metadatas in *. rewrite foldl_app, reverse_app. simpl.
  case_bool_decide as Hk.
  - subst k. apply lookup_insert_eq.
  - by rewrite lookup_insert_ne.
Qed.

Lemma last_of_size_Some k mds md :
  last_of_size k mds = Some md -> md ∈ mds /\ Metadata.size md = k.
Proof.
  unfold last_of_size. intros Hfind. apply find_some in Hfind as [Hin Hk].
  split.
  - apply elem_of_reverse. by apply list_elem_of_In.
  - by apply bool_decide_eq_true_1 in Hk.
Qed.

Lemma last_of_size_elem md mds :
  md ∈ mds -> is_Some (last_of_size (Metadata.size md) mds).
Proof.
  intros Hin. unfold last_of_size.
  destruct (List.find _ (reverse mds)) as [md'|] eqn:Hfind; [by eexists|].
  assert (In md (reverse mds)) as Hin'
    by (apply list_elem_of_In; by apply elem_of_reverse).
  pose proof (find_none _ _ Hfind md Hin') as Hno. simpl in Hno.
  by rewrite bool_decide_eq_true_2 in Hno.
Qed.

Lemma merge_metadatas_twice st mds (c : gmap string Thumbnail.t) :
  merge_metadatas st mds (merge_metadatas st mds c) = merge_metadatas st mds c.
Proof.
  apply map_eq. intros k. rewrite !merge_metadatas_lookup.
  by destruct (last_of_size k mds).
Qed.

End ManagerRuns.

Section ManagerProperties.
Context {World : Type} `{Env : Collaborators World}.
Implicit Types (self : ThumbnailManager) (w : World) (size name : string).

(** X1.  What [get_thumbnail] has answered once it answers again from the
    cache: after a successful call, a further call for the same size, in
    whatever world and with whatever [create] argument, returns the same
    thumbnail and leaves manager and world untouched (no collaborator is
    called). *)
Theorem get_thumbnail_answer_is_cached size flag self w th self' w' :
  get_thumbnail size flag (self, w) = (Ok th, (self', w')) ->
  forall flag' w'',
    get_thumbnail size flag' (self', w'') = (Ok th, (self', w'')).
Proof.
  intros Hrun flag' w''.
  pose proof (get_thumbnail_manager size flag self w) as Hm.
  rewrite Hrun in Hm. subst self'.
  apply get_thumbnail_hit. simpl. apply lookup_insert_eq.
Qed.

(** X2.  The only trace [get_thumbnail] leaves in the manager is the
    entry of the size asked for.  When it returns a thumbnail, the manager
    is the old one with that thumbnail stored under the size; when it
    raises (in the metadata lookup or in the generation), the manager is
    exactly the old one: a failure never populates the cache. *)
Theorem get_thumbnail_effect_on_manager size flag self w :
  match get_thumbnail size flag (self, w) with
  | (Ok th, (self', _)) =>
      self' = set_thumbnails (<[size := th]> (_thumbnails self)) self
      /\ _thumbnails self' !! size = Some th
  | (Raise _, (self', _)) => self' = self
  end.
Proof.
  pose proof (get_thumbnail_manager size flag self w) as Hm.
  destruct (get_thumbnail size flag (self, w)) as [[th|e] [self' w']]; [|done].
  split; [done|]. subst self'. simpl. apply lookup_insert_eq.
Qed.

(** X3.  [create] does not refresh a cached entry: when a size is cached,
    [get_thumbnail] called after [create], whatever [create] returned or
    raised, still answers the thumbnail that was cached, without any
    collaborator call. *)
Theorem create_then_get_thumbnail_answers_cached size old self :
  _thumbnails self !! size = Some old ->
  forall flag w,
    get_thumbnail size flag (create size (self, w)).2 =
      (Ok old, (create size (self, w)).2).
Proof.
  intros Hhit flag w. rewrite create_run. simpl.
  by apply get_thumbnail_hit.
Qed.

(** X4.  What [delete] does to the manager.  When it returns, the size was
    cached and the manager is the old one without that entry; when it
    raises, be it [images.delete] failing or the [KeyError] of an uncached
    size, the manager is exactly the old one. *)
Theorem delete_effect_on_manager size self w :
  match delete size (self, w) with
  | (Ok _, (self', _)) =>
      is_Some (_thumbnails self !! size)
      /\ self' = set_thumbnails (base.delete size (_thumbnails self)) self
  | (Raise _, (self', _)) => self' = self
  end.
Proof.
  rewrite delete_run.
  destruct (images_delete _ _ _ _ w) as [[[]|e] w1]; [|done].
  destruct (_thumbnails self !! size) as [th|]; [|done].
  split; [by eexists | done].
Qed.

(** X5.  [delete] is not idempotent: after a [delete] that returned, a
    second [delete] of the same size calls [images.delete] again and, when
    that returns, raises [KeyError]. *)
Theorem delete_twice_raises_KeyError size self w self' w' w'' :
  delete size (self, w) = (Ok tt, (self', w')) ->
  images_delete (SourceImage.name (source_image self)) size
    (metadata_backend self) (storage self) w' = (Ok tt, w'') ->
  delete size (self', w') = (Raise (KeyError size), (self', w'')).
Proof.
  intros Hfirst Hagain.
  rewrite (delete_ok_manager _ _ _ _ _ Hfirst).
  rewrite delete_run. simpl. rewrite Hagain.
  by rewrite lookup_delete_eq.
Qed.

(** X6.  After a [delete] that returned, [get_thumbnail] of that size goes
    back to the collaborators: when the metadata lookup finds nothing and
    the generator returns a thumbnail, that thumbnail is answered and
    takes, in the cache, the place of the entry deleted. *)
Theorem delete_then_get_thumbnail_generates size flag self w self' w' w1 th w2 :
  delete size (self, w) = (Ok tt, (self', w')) ->
  images_get (SourceImage.name (source_image self)) size
    (metadata_backend self) (storage self) w' = (Ok None, w1) ->
  images_create (SourceImage.name (source_image self)) size
    (metadata_backend self) (storage self) w1 = (Ok th, w2) ->
  get_thumbnail size flag (self', w') =
    (Ok th, (set_thumbnails (<[size := th]> (_thumbnails self)) self, w2)).
Proof.
  intros Hdel Hget Hcreate.
  rewrite (delete_ok_manager _ _ _ _ _ Hdel).
  rewrite (get_thumbnail_generates size flag _ w' w1 th w2); simpl.
  - by rewrite insert_delete_eq.
  - apply lookup_delete_eq.
  - done.
  - done.
Qed.

(** X7.  The dictionary of [all], key by key.  When the backend answers
    the records [mds], a size that occurs in [mds] is mapped to the
    thumbnail of the last record of that size (a cached entry of that size
    is overwritten), and every other key keeps the entry it had. *)
Theorem all_lookup self w mds w' :
  get_thumbnails (metadata_backend self) (SourceImage.name (source_image self)) w
    = (Ok mds, w') ->
  exists cache',
    all (self, w) = (Ok cache', (set_thumbnails cache' self, w'))
    /\ forall k,
         cache' !! k =
           match last_of_size k mds with
           | Some md => Some (Thumbnail.mk (Some md) (storage self))
           | None => _thumbnails self !! k
           end.
Proof.
  intros Hq. eexists. split; [by apply all_run|].
  intros k. apply merge_metadatas_lookup.
Qed.

(** X8.  [all] is idempotent on an unchanged store: when the backend
    answers the same records again, a second [all] returns the same
    dictionary and leaves the manager as the first one did. *)
Theorem all_twice_same_dictionary self w mds w1 w2 :
  get_thumbnails (metadata_backend self) (SourceImage.name (source_image self)) w
    = (Ok mds, w1) ->
  get_thumbnails (metadata_backend self) (SourceImage.name (source_image self)) w1
    = (Ok mds, w2) ->
  exists cache',
    all (self, w) = (Ok cache', (set_thumbnails cache' self, w1))
    /\ all (set_thumbnails cache' self, w1)
       = (Ok cache', (set_thumbnails cache' self, w2)).
Proof.
  intros Hq1 Hq2. eexists. split; [by apply all_run|].
  rewrite (all_run _ w1 mds w2) by done. simpl.
  by rewrite merge_metadatas_twice.
Qed.

(** X9.  After [all], every size the backend has answered a record for is
    served from the cache: [get_thumbnail] of the size of any record of
    [mds] returns, in whatever world and without touching manager or
    world, the thumbnail of a record of [mds] of that size. *)
Theorem all_then_get_thumbnail_hits self w mds w' md :
  get_thumbnails (metadata_backend self) (SourceImage.name (source_image self)) w
    = (Ok mds, w') ->
  md ∈ mds ->
  exists md',
    md' ∈ mds /\ Metadata.size md' = Metadata.size md
    /\ forall flag w'',
         get_thumbnail (Metadata.size md) flag ((all (self, w)).2.1, w'') =
           (Ok (Thumbnail.mk (Some md') (storage self)),
            ((all (self, w)).2.1, w'')).
Proof.
  intros Hq Hin.
  destruct (last_of_size_elem md mds Hin) as [md' Hlast].
  destruct (last_of_size_Some _ _ _ Hlast) as [Hin' Hsize].
  exists md'. split; [done|]. split; [done|].
  intros flag w''. rewrite (all_run self w mds w' Hq). simpl.
  apply get_thumbnail_hit. simpl.
  by rewrite merge_metadatas_lookup, Hlast.
Qed.

(** X10.  With a truthy source image, attribute-style access that returns
    never returns a [FallbackImage], whatever the registry configures: it
    returns a thumbnail, which is then cached under the name, so that the
    same access repeated, in whatever world, gives the same answer and
    touches nothing. *)
Theorem getattr_bound_answer_is_cached name self w image self' w' :
  SourceImage.truthy (source_image self) = true ->
  __getattr__ name (self, w) = (Ok image, (self', w')) ->
  exists th,
    image = IsThumbnail th
    /\ _thumbnails self' !! name = Some th
    /\ forall w'', __getattr__ name (self', w'') = (Ok image, (self', w'')).
Proof.
  intros Htruthy Hrun. unfold __getattr__ in *.
  destruct (SIZES !! name) as [spec|]; [|done].
  unfold bind, self_, ret in *. simpl in *. rewrite Htruthy in Hrun. simpl in Hrun.
  pose proof (get_thumbnail_manager name true self w) as Hself.
  destruct (get_thumbnail name true (self, w)) as [[th|e] [self1 w1]] eqn:Hget;
    [|done].
  injection Hrun as <- <- <-.
  assert (_thumbnails self1 !! name = Some th) as Hcached
    by (subst self1; simpl; apply lookup_insert_eq).
  exists th. split; [done|]. split; [done|].
  intros w''.
  assert (source_image self1 = source_image self) as -> by (by subst self1).
  rewrite Htruthy. simpl.
  by rewrite (get_thumbnail_hit name true self1 w'' th Hcached).
Qed.

(** X11.  No method assigns the backends or the source image of the
    manager: after [create], [get_thumbnail], [__getattr__], [all] or
    [delete], returned or raised, they are the ones the manager was
    constructed with. *)
Theorem methods_keep_bindings size name flag self w :
  same_bindings self (create size (self, w)).2.1
  /\ same_bindings self (get_thumbnail size flag (self, w)).2.1
  /\ same_bindings self (__getattr__ name (self, w)).2.1
  /\ same_bindings self (all (self, w)).2.1
  /\ same_bindings self (delete size (self, w)).2.1.
Proof.
  assert (forall size flag,
             same_bindings self (get_thumbnail size flag (self, w)).2.1) as Hget.
  { intros size0 flag0.
    pose proof (get_thumbnail_manager size0 flag0 self w) as Hm.
    destruct (get_thumbnail size0 flag0 (self, w)) as [[th|e] [self' w']];
      simpl; by subst self'. }
  split; [by rewrite create_keeps_self|]. split; [apply Hget|].
  split; [|split].
  - unfold __getattr__. destruct (SIZES !! name) as [spec|]; [|done].
    unfold bind, self_, ret. simpl.
    destruct (negb (SourceImage.truthy (source_image self))).
    + destruct (FALLBACK_IMAGE_URL spec) as [url|]; [|done].
      by destruct (negb (String.eqb url "")).
    + specialize (Hget name true).
      by destruct (get_thumbnail name true (self, w)) as [[th|e] [self' w']].
  - rewrite all_run_any.
    by destruct (get_thumbnails _ _ w) as [[mds|e] w1].
  - rewrite delete_run.
    destruct (images_delete _ _ _ _ w) as [[[]|e] w1]; [|done].
    by destruct (_thumbnails self !! size).
Qed.

(** X12.  Only [delete] removes a key: after [create], [get_thumbnail],
    [__getattr__] or [all], returned or raised, every size that was
    cached is still cached. *)
Theorem only_delete_removes_keys size name flag self w :
  dom (_thumbnails self) ⊆ dom (_thumbnails (create size (self, w)).2.1)
  /\ dom (_thumbnails self) ⊆ dom (_thumbnails (get_thumbnail size flag (self, w)).2.1)
  /\ dom (_thumbnails self) ⊆ dom (_thumbnails (__getattr__ name (self, w)).2.1)
  /\ dom (_thumbnails self) ⊆ dom (_thumbnails (all (self, w)).2.1).
Proof.
  assert (forall size flag,
             dom (_thumbnails self)
             ⊆ dom (_thumbnails (get_thumbnail size flag (self, w)).2.1)) as Hget.
  { intros size0 flag0.
    pose proof (get_thumbnail_manager size0 flag0 self w) as Hm.
    destruct (get_thumbnail size0 flag0 (self, w)) as [[th|e] [self' w']];
      simpl; subst self'; [|done].
    simpl. rewrite dom_insert_L. apply union_subseteq_r. }
  split; [by rewrite create_keeps_self|]. split; [apply Hget|]. split.
  - unfold __getattr__. destruct (SIZES !! name) as [spec|]; [|done].
    unfold bind, self_, ret. simpl.
    destruct (negb (SourceImage.truthy (source_image self))).
    + destruct (FALLBACK_IMAGE_URL spec) as [url|]; [|done].
      by destruct (negb (String.eqb url "")).
    + specialize (Hget name true).
      by destruct (get_thumbnail name true (self, w)) as [[th|e] [self' w']].
  - rewrite all_run_any.
    destruct (get_thumbnails _ _ w) as [[mds|e] w1]; simpl; [|done].
    rewrite dom_merge_metadatas. apply union_subseteq_l.
Qed.

End ManagerProperties.

(** * The further properties, applied to the fixtures *)

Section ManagerWitnesses.
Import Fixtures.

Lemma get_thumbnail_answer_is_cached_witness :
  let th := Thumbnail.mk (Some small_md) 0 in
  @get_thumbnail _ env "small" false (manager, small_world) =
    (Ok th,
     (cached_manager,
      Reference.logged [Reference.MetaGetOne 0 avatar_name "small"] small_world))
  /\ forall flag' w'',
       @get_thumbnail _ env "small" flag' (cached_manager, w'') =
         (Ok th, (cached_manager, w'')).
Proof.
  intros th.
  assert (@get_thumbnail _ env "small" false (manager, small_world) =
            (Ok th,
             (cached_manager,
              Reference.logged [Reference.MetaGetOne 0 avatar_name "small"]
                small_world))) as Hrun by reflexivity.
  split; [exact Hrun|].
  exact (@get_thumbnail_answer_is_cached _ env "small" false manager small_world
           th cached_manager _ Hrun).
Defined.

Lemma create_then_get_thumbnail_answers_cached_witness :
  let old := Thumbnail.mk (Some small_md) 0 in
  _thumbnails cached_manager !! "small" = Some old
  /\ (@create _ env "small" (cached_manager, small_world)).1 =
       Ok (Thumbnail.mk
             (Some (Metadata.mk avatar_name "small" "avatars/a.png_small_9")) 0)
  /\ forall flag w,
       @get_thumbnail _ env "small" flag
         (@create _ env "small" (cached_manager, w)).2 =
         (Ok old, (@create _ env "small" (cached_manager, w)).2).
Proof.
  intros old. split; [reflexivity|]. split; [reflexivity|].
  apply (@create_then_get_thumbnail_answers_cached _ env "small" old
           cached_manager).
  reflexivity.
Defined.

Lemma delete_twice_raises_KeyError_witness :
  let w' :=
    {| Reference.rows := [];
       Reference.blobs := ["avatars/a.png"];
       Reference.serial := 9;
       Reference.log :=
         [Reference.BlobDelete (Some "avatars/a.png_small_7");
          Reference.MetaRemove 0 avatar_name "small"] |} in
  let w'' := Reference.logged [Reference.MetaRemove 0 avatar_name "small"] w' in
  @delete _ env "small" (cached_manager, small_world) = (Ok tt, (manager, w'))
  /\ @images_delete _ env avatar_name "small" database 0 w' = (Ok tt, w'')
  /\ @delete _ env "small" (manager, w') = (Raise (KeyError "small"), (manager, w'')).
Proof.
  intros w' w''. split; [reflexivity|]. split; [reflexivity|].
  apply (@delete_twice_raises_KeyError _ env "small" cached_manager small_world
           manager w' w''); reflexivity.
Defined.

Lemma delete_then_get_thumbnail_generates_witness :
  let w' :=
    {| Reference.rows := [];
       Reference.blobs := ["avatars/a.png"];
       Reference.serial := 9;
       Reference.log :=
         [Reference.BlobDelete (Some "avatars/a.png_small_7");
          Reference.MetaRemove 0 avatar_name "small"] |} in
  let w1 := Reference.logged [Reference.MetaGetOne 0 avatar_name "small"] w' in
  let th := Thumbnail.mk
              (Some (Metadata.mk avatar_name "small" "avatars/a.png_small_9")) 0 in
  let w2 := Reference.generated_world "avatars/a.png" "small" database w1 in
  @delete _ env "small" (cached_manager, small_world) = (Ok tt, (manager, w'))
  /\ @images_get _ env avatar_name "small" database 0 w' = (Ok None, w1)
  /\ @images_create _ env avatar_name "small" database 0 w1 = (Ok th, w2)
  /\ @get_thumbnail _ env "small" true (manager, w') =
       (Ok th, (set_thumbnails {["small" := th]} manager, w2)).
Proof.
  intros w' w1 th w2.
  split; [reflexivity|]. split; [reflexivity|]. split; [reflexivity|].
  apply (@delete_then_get_thumbnail_generates _ env "small" true cached_manager
           small_world manager w' w1 th w2); reflexivity.
Defined.

Lemma all_lookup_witness :
  let w' := Reference.logged [Reference.MetaGetAll 0 avatar_name] small_world in
  @get_thumbnails _ env database avatar_name small_world = (Ok [small_md], w')
  /\ exists cache',
       @all _ env (stale_manager, small_world) =
         (Ok cache', (set_thumbnails cache' stale_manager, w'))
       /\ forall k,
            cache' !! k =
              match last_of_size k [small_md] with
              | Some md => Some (Thumbnail.mk (Some md) 0)
              | None => _thumbnails stale_manager !! k
              end.
Proof.
  intros w'. split; [reflexivity|].
  apply (@all_lookup _ env stale_manager small_world [small_md] w').
  reflexivity.
Defined.

Lemma all_twice_same_dictionary_witness :
  let w1 := Reference.logged [Reference.MetaGetAll 0 avatar_name] small_world in
  let w2 := Reference.logged [Reference.MetaGetAll 0 avatar_name] w1 in
  @get_thumbnails _ env database avatar_name small_world = (Ok [small_md], w1)
  /\ @get_thumbnails _ env database avatar_name w1 = (Ok [small_md], w2)
  /\ exists cache',
       @all _ env (stale_manager, small_world) =
         (Ok cache', (set_thumbnails cache' stale_manager, w1))
       /\ @all _ env (set_thumbnails cache' stale_manager, w1) =
            (Ok cache', (set_thumbnails cache' stale_manager, w2)).
Proof.
  intros w1 w2. split; [reflexivity|]. split; [reflexivity|].
  apply (@all_twice_same_dictionary _ env stale_manager small_world [small_md]
           w1 w2); reflexivity.
Defined.

Lemma all_then_get_thumbnail_hits_witness :
  let w' := Reference.logged [Reference.MetaGetAll 0 avatar_name] small_world in
  @get_thumbnails _ env database avatar_name small_world = (Ok [small_md], w')
  /\ small_md ∈ [small_md]
  /\ exists md',
       md' ∈ [small_md] /\ Metadata.size md' = "small"
       /\ forall flag w'',
            @get_thumbnail _ env "small" flag
              ((@all _ env (stale_manager, small_world)).2.1, w'') =
              (Ok (Thumbnail.mk (Some md') 0),
               ((@all _ env (stale_manager, small_world)).2.1, w'')).
Proof.
  intros w'.
  assert (small_md ∈ [small_md]) as Hin by constructor.
  split; [reflexivity|]. split; [exact Hin|].
  exact (@all_then_get_thumbnail_hits _ env stale_manager small_world [small_md]
           w' small_md eq_refl Hin).
Defined.

Lemma getattr_bound_answer_is_cached_witness :
  let image := IsThumbnail (Thumbnail.mk (Some small_md) 0) in
  let w' := Reference.logged [Reference.MetaGetOne 0 avatar_name "small"]
              small_world in
  SourceImage.truthy (source_image manager) = true
  /\ @__getattr__ _ env "small" (manager, small_world) =
       (Ok image, (cached_manager, w'))
  /\ exists th,
       image = IsThumbnail th
       /\ _thumbnails cached_manager !! "small" = Some th
       /\ forall w'',
            @__getattr__ _ env "small" (cached_manager, w'') =
              (Ok image, (cached_manager, w'')).
Proof.
  intros image w'. split; [reflexivity|]. split; [reflexivity|].
  apply (@getattr_bound_answer_is_cached _ env "small" manager small_world
           image cached_manager w'); reflexivity.
Defined.

End ManagerWitnesses.
